(** * Access control and cache invalidation of the `support` app

    A shallow embedding of [support/models.py], [support/signals.py],
    [support/mixins.py], [support/permissions.py], [support/serializers.py]
    and [support/views.py].

    Foreign keys are held as the related object itself, the way Django's
    related-object cache hands them out ([issue.project], [comment.issue]);
    queries ([filter], [exists], [values_list]) run over the tables of
    [DB]. The Django cache is one key/value store with per-key expiry
    (LocMemCache semantics: an entry is live while [now < expiry]). *)

From stdpp Require Import base gmap strings list pretty.
From Stdlib Require Import Ascii.

Open Scope string_scope.

(* ------------------------------------------------------------------ *)
(** ** models.py *)

Module Models.

Record User := mkUser {
  u_id : nat;
  u_username : string;
  u_email : string;
  u_age : option nat;
  u_can_be_contacted : bool;
  u_can_data_be_shared : bool;
  u_password : string
}.

Record Project := mkProject {
  p_id : nat;
  p_title : string;
  p_author : nat   (* author_id *)
}.

Record Contributor := mkContributor {
  c_id : nat;
  c_user : nat;    (* user_id *)
  c_project : Project
}.

Record Issue := mkIssue {
  i_id : nat;
  i_title : string;
  i_project : Project;
  i_author : nat
}.

Record Comment := mkComment {
  cm_id : nat;
  cm_issue : Issue;
  cm_author : nat
}.

(** A model instance, as passed to signal receivers and to
    [has_object_permission]. *)
Inductive Obj :=
| OProject (p : Project)
| OContributor (c : Contributor)
| OIssue (i : Issue)
| OComment (c : Comment)
| OUser (u : User)
| OOther.

(** The persistent store: one table per model, plus the next
    auto-increment value of the project and contributor tables. *)
Record DB := mkDB {
  db_users : list User;
  db_projects : list Project;
  db_contributors : list Contributor;
  db_issues : list Issue;
  db_comments : list Comment;
  db_next_project : nat;
  db_next_contributor : nat
}.

(** [project.contributors.values_list('user_id', flat=True)] *)
Definition contributor_user_ids (db : DB) (p : Project) : list nat :=
  map c_user (filter (fun c => p_id (c_project c) = p_id p) (db_contributors db)).

(** [Contributor.objects.get(pk=pk)] once the ORM has turned [pk] into an
    integer; [None] is [Contributor.DoesNotExist]. *)
Definition find_contributor (db : DB) (pk : Z) : option Contributor :=
  List.find (fun c => Z.eqb (Z.of_nat (c_id c)) pk) (db_contributors db).

(** [Issue.objects.get(id=issue_id)], the id already an integer; [None]
    is [Issue.DoesNotExist]. *)
Definition find_issue (db : DB) (pk : Z) : option Issue :=
  List.find (fun i => Z.eqb (Z.of_nat (i_id i)) pk) (db_issues db).

End Models.

(* ------------------------------------------------------------------ *)
(** ** The Django cache (django.core.cache.cache) *)

Module Cache.

(** Values the app stores: integer versions and list payloads
    ([response.data], here the serialized ids of the page). *)
Inductive val :=
| VInt (n : nat)
| VData (d : list nat).

(** key -> (value, expiry); [None] expiry is [timeout=None] (never). *)
Abbreviation store := (gmap string (val * option nat)).

Definition cache_get (k : string) (now : nat) (c : store) : option val :=
  match c !! k with
  | Some (v, Some exp) => if decide (now < exp) then Some v else None
  | Some (v, None) => Some v
  | None => None
  end.

Definition cache_set (k : string) (v : val) (timeout : option nat) (now : nat)
    (c : store) : store :=
  <[k := (v, (fun t => now + t) <$> timeout)]> c.

(** Python truthiness of the result of [cache.get]. *)
Definition py_truthy (o : option val) : bool :=
  match o with
  | Some (VInt n) => negb (Nat.eqb n 0)
  | Some (VData d) => match d with [] => false | _ => true end
  | None => false
  end.

(** [cache.get(version_key) or 1]. Version keys only ever hold integers
    (they are written by [increment_version] and [get_cache_version]), so
    the non-integer case, a TypeError in Python on [+ 1], is not reached. *)
Definition version_or_1 (o : option val) : nat :=
  match o with
  | Some (VInt (S n)) => S n
  | _ => 1
  end.

Definition py_str (v : val) : string :=
  match v with
  | VInt n => pretty n
  | VData _ => "[...]"
  end.

End Cache.

(* ------------------------------------------------------------------ *)
(** ** signals.py *)

Module Signals.
Import Models Cache.

(** [get_related_users] *)
Definition get_related_users (db : DB) (instance : Obj) : list nat :=
  match instance with
  | OProject p => p_author p :: contributor_user_ids db p
  | OContributor c => p_author (c_project c) :: contributor_user_ids db (c_project c)
  | OIssue i => p_author (i_project i) :: contributor_user_ids db (i_project i)
  | OComment cm =>
      p_author (i_project (cm_issue cm)) :: contributor_user_ids db (i_project (cm_issue cm))
  | _ => []
  end.

Definition version_key (key_prefix : string) (user_id : nat) : string :=
  key_prefix +:+ "_version_user_" +:+ pretty user_id.

(** [increment_version]: a plain [cache.get] followed by [cache.set]. *)
Definition increment_version (key_prefix : string) (user_id : nat) (now : nat)
    (c : store) : store * nat :=
  let version := version_or_1 (cache_get (version_key key_prefix user_id) now c) in
  (cache_set (version_key key_prefix user_id) (VInt (version + 1)) None now c,
   version + 1).

Definition prefixes : list string :=
  ["projects_list"; "contributors_list"; "issues_list"; "comments_list"].

(** [auto_invalidate_cache], run on [post_save] and [post_delete] of
    Project, Contributor, Issue and Comment, with the store as it is
    after the save or the delete. *)
Definition auto_invalidate_cache (db : DB) (instance : Obj) (now : nat)
    (c : store) : store :=
  foldl (fun c user_id =>
           foldl (fun c prefix => fst (increment_version prefix user_id now c))
                 c prefixes)
        c (get_related_users db instance).

(** One pass of the inner loop over the four endpoints, for one user. *)
Definition bump_user (now : nat) (c : store) (user_id : nat) : store :=
  foldl (fun c prefix => fst (increment_version prefix user_id now c)) c prefixes.

(** The version counter of an actor for one endpoint, as the mixin and
    [increment_version] read it. *)
Definition version_of (now : nat) (key_prefix : string) (user_id : nat)
    (c : store) : nat :=
  version_or_1 (cache_get (version_key key_prefix user_id) now c).

End Signals.

(* ------------------------------------------------------------------ *)
(** ** mixins.py: CacheListMixin *)

Module Mixin.
Import Models Cache Signals.

(** What the mixin reads from the request: the authenticated user's pk
    ([None] for an anonymous user) and the [page] query parameter. *)
Record Request := mkRequest {
  req_user : option nat;
  req_page : option string
}.

Record Response := mkResponse { resp_data : val }.

(** A ViewSet using the mixin: its [cache_key] class attribute and the
    [super().list] it falls back to (queryset filtered on the user, then
    paginated). *)
Record ListView := mkListView {
  cache_key : option string;
  super_list : DB -> Request -> list nat
}.

(** [get_cache_version] *)
Definition get_cache_version (view : ListView) (request : Request) (now : nat)
    (c : store) : val * store :=
  match cache_key view, req_user request with
  | Some ck, Some pk =>
      let version_key := ck +:+ "_version_user_" +:+ pretty pk in
      let version := cache_get version_key now c in
      match version with
      | Some v => if py_truthy version then (v, c)
                  else (VInt 1, cache_set version_key (VInt 1) None now c)
      | None => (VInt 1, cache_set version_key (VInt 1) None now c)
      end
  | _, _ => (VInt 1, c)
  end.

(** [get_cache_key] *)
Definition get_cache_key (view : ListView) (request : Request) (now : nat)
    (c : store) : option string * store :=
  match cache_key view, req_user request with
  | Some ck, Some pk =>
      let page := default "1" (req_page request) in
      let '(version, c') := get_cache_version view request now c in
      (Some (ck +:+ "_user_" +:+ pretty pk +:+ "_page_" +:+ page +:+ "_v" +:+ py_str version), c')
  | _, _ => (None, c)
  end.

(** [list] *)
Definition list (view : ListView) (db : DB) (request : Request) (now : nat)
    (c : store) : Response * store :=
  let '(ck, c1) := get_cache_key view request now c in
  match ck with
  | None => (mkResponse (VData (super_list view db request)), c1)
  | Some k =>
      match cache_get k now c1 with
      | Some cached => (mkResponse cached, c1)
      | None =>
          let data := VData (super_list view db request) in
          (mkResponse data, cache_set k data (Some 300) now c1)
      end
  end.

End Mixin.

(* ------------------------------------------------------------------ *)
(** ** Model deletes with their [post_delete] signal *)

Module Mutations.
Import Models Cache Signals.

(** [contributor.delete()]: the row is removed, then [post_delete] runs
    [auto_invalidate_cache] against the store without that row. *)
Definition contributor_delete (db : DB) (c : Contributor) (now : nat)
    (cache : store) : DB * store :=
  let db' := mkDB (db_users db) (db_projects db)
               (filter (fun c' => c_id c' <> c_id c) (db_contributors db))
               (db_issues db) (db_comments db)
               (db_next_project db) (db_next_contributor db) in
  (db', auto_invalidate_cache db' (OContributor c) now cache).

End Mutations.

(* ------------------------------------------------------------------ *)
(** ** permissions.py *)

Module Permissions.
Import Models.

Inductive Method := GET | HEAD | OPTIONS | POST | PUT | PATCH | DELETE.

(** [request.method in SAFE_METHODS] *)
Definition is_safe (m : Method) : bool :=
  match m with GET | HEAD | OPTIONS => true | _ => false end.

(** What a permission check can end in: a decision, or an exception
    escaping [has_permission]: [view.get_object()] raises [Http404]; an
    ORM lookup on an id field raises [ValueError] when the value is not
    an integer ("Field 'id' expected a number"), and DRF answers it with
    a server error. *)
Inductive Exn := Http404 | ValueError.
Inductive outcome := Ret (b : bool) | Raise (e : Exn).

(** A value of [request.data]: a JSON number or a string (form fields
    are always strings). *)
Inductive pyval := PInt (z : Z) | PStr (s : string).

(** The request: method, authenticated user pk ([None] for
    AnonymousUser), and the fields of [request.data]. *)
Record PRequest := mkPRequest {
  pr_method : Method;
  pr_user : option nat;
  pr_data : list (string * pyval)
}.

(** The view: [view.action], [view.kwargs] (URL parameters, strings
    captured by the router's [[^/.]+]) and the result of
    [view.get_object()] ([None] is the Http404 it raises). *)
Record PView := mkPView {
  pv_action : option string;
  pv_kwargs : list (string * string);
  pv_get_object : option Obj
}.

(** [d.get(k)] on a dict given as an association list. *)
Definition dict_get {V} (k : string) (d : list (string * V)) : option V :=
  snd <$> List.find (fun kv => bool_decide (fst kv = k)) d.

Definition dict_has {V} (k : string) (d : list (string * V)) : bool :=
  bool_decide (is_Some (dict_get k d)).

(** Python truthiness: [None], [0] and [""] are falsy. *)
Definition truthy (o : option pyval) : bool :=
  match o with
  | Some (PInt z) => negb (Z.eqb z 0)
  | Some (PStr s) => negb (bool_decide (s = ""))
  | None => false
  end.

(** [a or b] *)
Definition py_or (a b : option pyval) : option pyval := if truthy a then a else b.

(** [int(s)] on a string, as [IntegerField.get_prep_value] calls it:
    surrounding whitespace is skipped, then an optional sign and decimal
    digits, an underscore allowed between two digits; anything else is a
    [ValueError] ([None]). *)
Definition is_space (c : ascii) : bool :=
  let n := nat_of_ascii c in
  (Nat.leb 9 n && Nat.leb n 13) || (Nat.leb 28 n && Nat.leb n 32).

Fixpoint drop_spaces (cs : list ascii) : list ascii :=
  match cs with
  | c :: r => if is_space c then drop_spaces r else cs
  | [] => []
  end.

Definition strip (cs : list ascii) : list ascii :=
  rev (drop_spaces (rev (drop_spaces cs))).

Fixpoint digits (cs : list ascii) (acc : Z) (after_digit : bool) : option Z :=
  match cs with
  | [] => if after_digit then Some acc else None
  | c :: r =>
      let n := nat_of_ascii c in
      if Nat.leb 48 n && Nat.leb n 57 then digits r (acc * 10 + Z.of_nat (n - 48)) true
      else if Nat.eqb n 95 && after_digit then digits r acc false
      else None
  end.

Definition int_of_string (s : string) : option Z :=
  match strip (String.list_ascii_of_string s) with
  | c :: r =>
      if Nat.eqb (nat_of_ascii c) 45 then Z.opp <$> digits r 0 false
      else if Nat.eqb (nat_of_ascii c) 43 then digits r 0 false
      else digits (c :: r) 0 false
  | [] => None
  end.

(** The integer the ORM makes of a value given for an id field. *)
Definition to_int (v : pyval) : option Z :=
  match v with PInt z => Some z | PStr s => int_of_string s end.

Definition is_authenticated (r : PRequest) : bool :=
  match pr_user r with Some _ => true | None => false end.

(** [x == request.user], comparing primary keys; AnonymousUser equals
    no user. *)
Definition is_user (x : nat) (r : PRequest) : bool :=
  match pr_user r with Some u => Nat.eqb x u | None => false end.

Definition action_is (a : string) (v : PView) : bool :=
  bool_decide (pv_action v = Some a).

(** *** IsSelfOrCreateOnly *)
Module IsSelfOrCreateOnly.
Definition has_permission (r : PRequest) (v : PView) : bool :=
  if action_is "create" v then true else is_authenticated r.

(** [obj == request.user] *)
Definition has_object_permission (r : PRequest) (obj : Obj) : bool :=
  match obj with OUser u => is_user (u_id u) r | _ => false end.
End IsSelfOrCreateOnly.

(** The checks DRF runs for a ViewSet action: [has_permission] always;
    for actions on one object (retrieve, update, partial_update,
    destroy) also [has_object_permission] on the object [get_object]
    returns. A missing object is the Http404 of [get_object], which
    grants nothing. *)
Definition object_action (v : PView) : bool :=
  action_is "retrieve" v || action_is "update" v
  || action_is "partial_update" v || action_is "destroy" v.

Definition drf_allows (has_perm : PRequest -> PView -> bool)
    (has_obj : PRequest -> Obj -> bool) (r : PRequest) (v : PView) : bool :=
  has_perm r v &&
  (if object_action v then
     match pv_get_object v with Some o => has_obj r o | None => false end
   else true).

(** [UserViewSet.permission_classes = [IsAuthenticated]] *)
Definition user_viewset_allows (r : PRequest) (v : PView) : bool :=
  drf_allows (fun r _ => is_authenticated r) (fun _ _ => true) r v.

Definition self_or_create_allows (r : PRequest) (v : PView) : bool :=
  drf_allows IsSelfOrCreateOnly.has_permission
    IsSelfOrCreateOnly.has_object_permission r v.

(** [Project.objects.filter(id=project_id, author=request.user).exists()],
    the id already an integer. *)
Definition project_author_exists (db : DB) (project_id : Z) (r : PRequest) : bool :=
  existsb (fun p => Z.eqb (Z.of_nat (p_id p)) project_id && is_user (p_author p) r)
          (db_projects db).

(** *** IsProjectAuthor *)
Module IsProjectAuthor.
Definition has_permission (db : DB) (r : PRequest) (v : PView) : outcome :=
  if action_is "list" v || action_is "retrieve" v then Ret (is_authenticated r)
  else if action_is "destroy" v && dict_has "pk" (pv_kwargs v) then
    match dict_get "pk" (pv_kwargs v) with
    | Some pk =>
        match int_of_string pk with
        | None => Raise ValueError
        | Some pk =>
            match find_contributor db pk with
            | None => Ret false                (* Contributor.DoesNotExist *)
            | Some contributor => Ret (is_user (p_author (c_project contributor)) r)
            end
        end
    | None => Ret false
    end
  else
    let project_id := py_or (dict_get "project" (pr_data r))
                        (py_or (PStr <$> dict_get "project_pk" (pv_kwargs v))
                               (PStr <$> dict_get "pk" (pv_kwargs v))) in
    if truthy project_id then
      match project_id ≫= to_int with
      | Some z => Ret (project_author_exists db z r)
      | None => Raise ValueError
      end
    else Ret false.
End IsProjectAuthor.

(** *** IsContributor *)
Module IsContributor.

(** [_get_project_from_obj] *)
Definition get_project_from_obj (obj : Obj) : option Project :=
  match obj with
  | OProject p => Some p
  | OIssue i => Some (i_project i)
  | OContributor c => Some (c_project c)
  | OComment cm => Some (i_project (cm_issue cm))
  | _ => None
  end.

(** [Contributor.objects.filter(Q(project_id=project_id) &
     (Q(user=request.user) | Q(project__author=request.user))).exists()] *)
Definition member_query (db : DB) (project_id : nat) (r : PRequest) : bool :=
  existsb (fun c => Nat.eqb (p_id (c_project c)) project_id
                    && (is_user (c_user c) r || is_user (p_author (c_project c)) r))
          (db_contributors db).

(** The same query for a [project_id] taken from [request.data], once
    the ORM has turned it into an integer. *)
Definition member_query_id (db : DB) (project_id : Z) (r : PRequest) : bool :=
  existsb (fun c => Z.eqb (Z.of_nat (p_id (c_project c))) project_id
                    && (is_user (c_user c) r || is_user (p_author (c_project c)) r))
          (db_contributors db).

Definition has_permission (db : DB) (r : PRequest) (v : PView) : outcome :=
  if is_safe (pr_method r) then Ret (is_authenticated r)
  else if action_is "create" v then
    let project_id := dict_get "project" (pr_data r) in
    if truthy project_id then
      match project_id ≫= to_int with
      | Some z => Ret (member_query_id db z r)
      | None => Raise ValueError
      end
    else                                     (* if not project_id *)
      let issue_id := dict_get "issue" (pr_data r) in
      if truthy issue_id then
        match issue_id ≫= to_int with
        | None => Raise ValueError
        | Some z =>
            match find_issue db z with
            | Some issue => Ret (member_query db (p_id (i_project issue)) r)
            | None => Ret false                  (* Issue.DoesNotExist *)
            end
        end
      else Ret false
  else if action_is "partial_update" v || action_is "destroy" v then
    match pv_get_object v with
    | None => Raise Http404
    | Some obj =>
        match get_project_from_obj obj with
        | Some project => Ret (member_query db (p_id project) r)
        | None => Ret false
        end
    end
  else Ret false.

Definition has_object_permission (db : DB) (r : PRequest) (obj : Obj) : bool :=
  let project := get_project_from_obj obj in
  if negb (is_safe (pr_method r)) then
    match project with
    | Some p => is_user (p_author p) r
    | None => false
    end
  else
    existsb (fun c => is_user (c_user c) r
                      && match project with
                         | Some p => Nat.eqb (p_id (c_project c)) (p_id p)
                         | None => false
                         end)
            (db_contributors db).

End IsContributor.

(** The project reference each predicate resolves for a non-safe
    request, in the order it consults its sources: a project id, no
    reference, or a value the ORM refuses as an id. *)
Module Resolution.




End Resolution.

End Permissions.

(* ------------------------------------------------------------------ *)
(** ** serializers.py *)

Module Serializers.
Import Models.

Inductive json := JNum (n : nat) | JStr (s : string) | JBool (b : bool) | JNull.

(** [ModelSerializer.to_representation] for [UserSerializer.Meta.fields].
    The class-level [extra_kwargs] is outside [Meta], so the password
    field is not write-only and the parent includes it. *)
Definition user_model_representation (u : User) : list (string * json) :=
  [("id", JNum (u_id u));
   ("username", JStr (u_username u));
   ("email", JStr (u_email u));
   ("age", match u_age u with Some a => JNum a | None => JNull end);
   ("can_be_contacted", JBool (u_can_be_contacted u));
   ("can_data_be_shared", JBool (u_can_data_be_shared u));
   ("password", JStr (u_password u))].

(** [rep.pop(k, None)] on a dict with distinct keys. *)
Definition dict_pop (k : string) (d : list (string * json)) : list (string * json) :=
  filter (fun kv => fst kv <> k) d.

(** [UserSerializer.to_representation] *)
Definition user_to_representation (u : User) : list (string * json) :=
  dict_pop "password" (user_model_representation u).

(** [ProjectSerializer.create] called by [ProjectViewSet.perform_create]
    for the authenticated [request.user]: the project row is inserted,
    then [Contributor.objects.create(user=project.author, project=project)].
    [None] is the IntegrityError of [unique_together = ('user', 'project')]. *)
Definition project_create (db : DB) (request_user : nat) (title : string)
    : option (Project * DB) :=
  let project := mkProject (db_next_project db) title request_user in
  let db1 := mkDB (db_users db) (db_projects db ++ [project]) (db_contributors db)
               (db_issues db) (db_comments db)
               (S (db_next_project db)) (db_next_contributor db) in
  if existsb (fun c => Nat.eqb (c_user c) (p_author project)
                       && Nat.eqb (p_id (c_project c)) (p_id project))
             (db_contributors db1)
  then None
  else
    let contributor := mkContributor (db_next_contributor db1) (p_author project) project in
    Some (project,
          mkDB (db_users db1) (db_projects db1) (db_contributors db1 ++ [contributor])
               (db_issues db1) (db_comments db1)
               (db_next_project db1) (S (db_next_contributor db1))).

End Serializers.

(* ------------------------------------------------------------------ *)
(** ** Concurrent request handlers running [increment_version] *)

Module Interleaving.
Import Cache Signals.

(** [increment_version] is two operations on the shared store: the
    [cache.get] (with [or 1]) and the [cache.set]. A handler is before
    the get, between the two (holding the value it read), or done. *)
Inductive thread := TStart | TRead (version : nat) | TDone.

Section Handlers.
Variable key_prefix : string.
Variable user_id : nat.
Variable now : nat.

Definition read_step (c : store) : nat :=
  version_or_1 (cache_get (version_key key_prefix user_id) now c).

Definition write_step (version : nat) (c : store) : store :=
  cache_set (version_key key_prefix user_id) (VInt (version + 1)) None now c.

(** One atomic operation of handler [i]. *)
Definition step (st : list thread * store) (i : nat) : list thread * store :=
  let '(ts, c) := st in
  match ts !! i with
  | Some TStart => (<[i := TRead (read_step c)]> ts, c)
  | Some (TRead v) => (<[i := TDone]> ts, write_step v c)
  | _ => (ts, c)
  end.

(** Run the handlers along a schedule of handler indices. *)
Definition run (schedule : list nat) (ts : list thread) (c : store) : list thread * store :=
  foldl step (ts, c) schedule.

(** [n] calls of [increment_version], one after the other. *)
Definition sequential (n : nat) (c : store) : store :=
  Nat.iter n (fun c => fst (increment_version key_prefix user_id now c)) c.

End Handlers.

End Interleaving.

(* ------------------------------------------------------------------ *)
(** ** mixins.py: the invalidation of [perform_create],
       [perform_partial_update] and [perform_destroy] *)

Module MixinInvalidate.
Import Models Cache Signals Mixin.

(** [CacheListMixin._invalidate_cache] *)
Definition invalidate_cache (view : ListView) (request : Request) (now : nat)
    (c : store) : store :=
  match cache_key view, req_user request with
  | Some ck, Some pk =>
      let version_key := ck +:+ "_version_user_" +:+ pretty pk in
      let version := version_or_1 (cache_get version_key now c) in
      cache_set version_key (VInt (version + 1)) None now c
  | _, _ => c
  end.

(** [perform_create] / [perform_partial_update] / [perform_destroy]:
    the parent's write, then [_invalidate_cache]. *)
Definition perform_mutation (write : DB -> DB) (view : ListView)
    (request : Request) (db : DB) (now : nat) (c : store) : DB * store :=
  (write db, invalidate_cache view request now c).

End MixinInvalidate.

(* ------------------------------------------------------------------ *)
(** ** permissions.py: the remaining classes, and views.py's
       [permission_classes] for issues and comments *)

Module MorePermissions.
Import Models Permissions.

Module IsResourceAuthorOrReadOnly.
(** [obj.author]; the views using this class hand it Issues and
    Comments only. *)
Definition obj_author (obj : Obj) : option nat :=
  match obj with
  | OIssue i => Some (i_author i)
  | OComment cm => Some (cm_author cm)
  | _ => None
  end.

Definition has_object_permission (r : PRequest) (obj : Obj) : bool :=
  if is_safe (pr_method r) then true
  else match obj_author obj with
       | Some a => is_user a r
       | None => false
       end.
End IsResourceAuthorOrReadOnly.

Module IsProjectAuthorForContributor.
(** [_get_project_from_obj]: [hasattr(obj, "project")] holds for Issue
    and Contributor rows only. *)
Definition get_project_from_obj (obj : Obj) : option Project :=
  match obj with
  | OIssue i => Some (i_project i)
  | OContributor c => Some (c_project c)
  | _ => None
  end.

Definition has_permission (db : DB) (r : PRequest) (v : PView) : outcome :=
  if is_safe (pr_method r) then Ret (is_authenticated r)
  else if action_is "create" v then
    let project_id := dict_get "project" (pr_data r) in
    if truthy project_id then
      match project_id ≫= to_int with
      | Some z => Ret (project_author_exists db z r)
      | None => Raise ValueError
      end
    else Ret false
  else if action_is "partial_update" v || action_is "destroy" v then
    match pv_get_object v with
    | None => Raise Http404
    | Some obj =>
        match get_project_from_obj obj with
        | Some project => Ret (is_user (p_author project) r)
        | None => Ret false
        end
    end
  else Ret false.
End IsProjectAuthorForContributor.


(** [CommentViewSet.permission_classes = [IsAuthenticated, IsContributor,
    IsResourceAuthorOrReadOnly]]: DRF stops at the first class whose
    [has_permission] fails (an exception escapes as it is), then, for an
    action on one object, [get_object] (Http404 when missing) and every
    class's [has_object_permission]. [IsContributor.has_permission]
    itself calls [get_object], which runs the same object checks: the
    decision is the same. *)
Definition comment_viewset_check (db : DB) (r : PRequest) (v : PView) : outcome :=
  if negb (is_authenticated r) then Ret false
  else
    match IsContributor.has_permission db r v with
    | Raise e => Raise e
    | Ret false => Ret false
    | Ret true =>
        if object_action v then
          match pv_get_object v with
          | None => Raise Http404
          | Some o => Ret (IsContributor.has_object_permission db r o
                           && IsResourceAuthorOrReadOnly.has_object_permission r o)
          end
        else Ret true
    end.

End MorePermissions.

(* ------------------------------------------------------------------ *)
(** ** Primary keys handed out so far *)

Module Invariants.
Import Models.

(** Every project row, and the project of every contributor row, has a
    primary key below the next one the database will hand out. *)
Definition ids_below (db : DB) : bool :=
  forallb (fun p => Nat.ltb (p_id p) (db_next_project db)) (db_projects db)
  && forallb (fun c => Nat.ltb (p_id (c_project c)) (db_next_project db))
             (db_contributors db).

(** Number of handlers that have done their [cache.set]. *)
Definition is_done (t : Interleaving.thread) : nat :=
  match t with Interleaving.TDone => 1 | _ => 0 end.

Fixpoint count_done (ts : list Interleaving.thread) : nat :=
  match ts with
  | [] => 0
  | t :: ts => is_done t + count_done ts
  end.

End Invariants.

(* ------------------------------------------------------------------ *)
(** ** views.py: [CommentViewSet.get_queryset] *)

Module Views.
Import Models.

(** [Comment.objects.filter(issue__project__contributors__user=user)
     .distinct()]: the comments whose issue's project has a Contributor
    row for the user, each once (the [order_by("id")] is left out: the
    properties below are about membership). *)
Definition comments_queryset (db : DB) (user : nat) : list Comment :=
  List.filter (fun cm => existsb (fun c => Nat.eqb (c_user c) user
                           && Nat.eqb (p_id (c_project c))
                                      (p_id (i_project (cm_issue cm))))
                          (db_contributors db))
              (db_comments db).

End Views.

(* ------------------------------------------------------------------ *)
(** ** A small store: project 1 of user 1 *)

Module Fixtures.
Import Models.

Definition P1 : Project := mkProject 1 "P" 1.
(** The author's row, created by [ProjectSerializer.create]. *)
Definition C_author : Contributor := mkContributor 1 1 P1.
(** User 2, added by the author. *)
Definition C_user2 : Contributor := mkContributor 2 2 P1.
Definition I1 : Issue := mkIssue 1 "I" P1 1.

Definition db_one : DB := mkDB [] [P1] [C_author] [I1] [] 2 2.
Definition db_two : DB := mkDB [] [P1] [C_author; C_user2] [I1] [] 2 3.

(** [ProjectViewSet.get_queryset], first page: projects the user
    authored or contributes to, by id. *)
Definition projects_queryset (db : DB) (r : Mixin.Request) : list nat :=
  match Mixin.req_user r with
  | Some u =>
      map p_id (filter (fun p => Nat.eqb (p_author p) u
                          || existsb (fun c => Nat.eqb (c_user c) u
                                               && Nat.eqb (p_id (c_project c)) (p_id p))
                                     (db_contributors db) = true)
                       (db_projects db))
  | None => []
  end.

Definition projects_view : Mixin.ListView :=
  Mixin.mkListView (Some "projects_list") projects_queryset.

(** The store after the author deleted their own Contributor row. *)
Definition db_author_left : DB := mkDB [] [P1] [C_user2] [I1] [] 2 3.

(** [GET /api/projects/] by user 2, no [page] parameter. *)
Definition req_user2 : Mixin.Request := Mixin.mkRequest (Some 2) None.

End Fixtures.

(* ================================================================== *)
(** * Properties *)

(* ------------------------------------------------------------------ *)
(** ** Version counters under [auto_invalidate_cache] *)

Module SignalFacts.
Import Models Cache Signals.

Lemma cache_get_set_none_eq k v now now' (c : store) :
  cache_get k now' (cache_set k v None now c) = Some v.
Proof. unfold cache_get, cache_set. by rewrite lookup_insert_eq. Qed.

Lemma cache_get_set_ne k k' v t now now' (c : store) :
  k <> k' -> cache_get k' now' (cache_set k v t now c) = cache_get k' now' c.
Proof. intros Hne. unfold cache_get, cache_set. by rewrite lookup_insert_ne. Qed.

Lemma version_or_1_pos o : 1 <= version_or_1 o.
Proof. destruct o as [[[|n]|]|]; simpl; lia. Qed.

Lemma version_of_increment_same now pre u (c : store) :
  version_of now pre u (fst (increment_version pre u now c))
  = S (version_of now pre u c).
Proof.
  unfold version_of, increment_version; simpl.
  rewrite cache_get_set_none_eq.
  pose proof (version_or_1_pos (cache_get (version_key pre u) now c)) as Hp.
  destruct (version_or_1 (cache_get (version_key pre u) now c)) as [|v]; [lia|].
  simpl. lia.
Qed.

Lemma version_of_increment_other now pre u pre' u' (c : store) :
  version_key pre u <> version_key pre' u' ->
  version_of now pre' u' (fst (increment_version pre u now c))
  = version_of now pre' u' c.
Proof.
  intros Hne. unfold version_of, increment_version; simpl.
  by rewrite cache_get_set_ne.
Qed.

(** Distinct (endpoint, user) pairs have distinct version keys. *)
Lemma version_key_inj pre pre' u u' :
  pre ∈ prefixes -> pre' ∈ prefixes ->
  version_key pre u = version_key pre' u' -> pre = pre' /\ u = u'.
Proof.
  unfold version_key, prefixes.
  intros H1 H2 Heq.
  repeat rewrite elem_of_cons in H1; repeat rewrite elem_of_cons in H2;
  rewrite ?elem_of_nil in H1, H2.
  destruct H1 as [->|[->|[->|[->|[]]]]];
  destruct H2 as [->|[->|[->|[->|[]]]]];
  try (simpl in Heq; discriminate Heq);
  (split; [reflexivity|]);
  apply (inj pretty); do 2 apply (inj (String.append _)) in Heq; exact Heq.
Qed.

Lemma version_of_bump_user now pre u x (c : store) :
  pre ∈ prefixes ->
  version_of now pre u (bump_user now c x)
  = version_of now pre u c + (if Nat.eq_dec x u then 1 else 0).
Proof.
  intros Hin. unfold bump_user. cbn [foldl prefixes].
  assert (Hk : forall p, p ∈ prefixes -> (p <> pre \/ x <> u) ->
            version_key p x <> version_key pre u).
  { intros p Hp Hne Heq. apply version_key_inj in Heq; [|done|done]. tauto. }
  unfold prefixes in Hin, Hk.
  repeat rewrite elem_of_cons in Hin; rewrite ?elem_of_nil in Hin.
  destruct (Nat.eq_dec x u) as [->|Hxu];
  destruct Hin as [->|[->|[->|[->|[]]]]];
  repeat first
    [ rewrite version_of_increment_same
    | rewrite version_of_increment_other;
        [| apply Hk; [set_solver | first [left; discriminate | right; done]]] ];
  lia.
Qed.

(** Each endpoint's version of user [u] grows by the number of times [u]
    occurs in [get_related_users]. *)
Lemma version_of_auto_invalidate db inst now pre u (c : store) :
  pre ∈ prefixes ->
  version_of now pre u (auto_invalidate_cache db inst now c)
  = version_of now pre u c + count_occ Nat.eq_dec (get_related_users db inst) u.
Proof.
  intros Hin. unfold auto_invalidate_cache.
  change (fun c user_id => foldl (fun c prefix => fst (increment_version prefix user_id now c)) c prefixes)
    with (bump_user now).
  generalize (get_related_users db inst) as l.
  intros l; revert c; induction l as [|x l IH]; intros c; simpl; [lia|].
  rewrite IH, version_of_bump_user by done.
  destruct (Nat.eq_dec x u); lia.
Qed.

End SignalFacts.


(* ------------------------------------------------------------------ *)
(** ** The claims *)

Module Claims.
Import Models Cache Signals Mixin Mutations Fixtures SignalFacts.

(** C1 (code_bug). The spec: on a mutation, each affected actor's version
    counter for each list endpoint is incremented by exactly one. The
    code: [get_related_users] returns [author :: contributor user ids],
    and the author has a Contributor row of their own project, so for an
    Issue saved in project 1 of user 1 the author's counters all go up by
    two. *)
Theorem C1_author_bumped_twice :
  get_related_users db_one (OIssue I1) = [1; 1] /\
  Forall (fun pre => forall c : store,
            version_of 0 pre 1 (auto_invalidate_cache db_one (OIssue I1) 0 c)
            = version_of 0 pre 1 c + 2) prefixes.
Proof.
  split; [reflexivity|].
  repeat constructor; intros c;
    rewrite version_of_auto_invalidate by (unfold prefixes; set_solver);
    reflexivity.
Qed.

(** C2 (code_bug). The spec: after any mutation affecting a project the
    actor belongs to, the actor's version counter strictly increases and
    the next identical list request recomputes. The code: when the author
    deletes user 2's Contributor row, [post_delete] computes the related
    users from the store without that row, so user 2's counter is not
    bumped and user 2's next [GET /api/projects/] is served the cached
    page that still lists project 1, while the live query is empty. *)
Theorem C2_removed_contributor_served_stale :
  let '(r1, c1) := Mixin.list projects_view db_two req_user2 0 ∅ in
  let '(db', c2) := contributor_delete db_two C_user2 1 c1 in
  let '(r2, _) := Mixin.list projects_view db' req_user2 2 c2 in
  r1 = mkResponse (VData [1]) /\
  version_of 1 "projects_list" 2 c2 = version_of 0 "projects_list" 2 c1 /\
  r2 = r1 /\
  projects_queryset db' req_user2 = [].
Proof. vm_compute. repeat split. Qed.

(** C8 (confirmed). For an authenticated list request on a view whose
    [cache_key] is set, the key is
    [{cache_key}_user_{pk}_page_{page}_v{version}] with [page] defaulting
    to "1" and [version] the current version counter; on a hit the stored
    value is returned as the response data, unchanged; on a miss the live
    query result is returned and stored under the key, expiring 300
    seconds later. *)
Theorem C8_list_cache_key view db req now (c : store) ck uid ver c1 :
  cache_key view = Some ck ->
  req_user req = Some uid ->
  get_cache_version view req now c = (ver, c1) ->
  let k := ck +:+ "_user_" +:+ pretty uid +:+ "_page_"
           +:+ default "1" (req_page req) +:+ "_v" +:+ py_str ver in
  get_cache_key view req now c = (Some k, c1) /\
  match cache_get (version_key ck uid) now c with
  | Some (VData _) => True
  | _ => ver = VInt (version_of now ck uid c)
  end /\
  (forall d, cache_get k now c1 = Some d ->
     Mixin.list view db req now c = (mkResponse d, c1)) /\
  (cache_get k now c1 = None ->
     Mixin.list view db req now c
     = (mkResponse (VData (super_list view db req)),
        cache_set k (VData (super_list view db req)) (Some 300) now c1)).
Proof.
  intros Hck Hu Hv k.
  assert (Hkey : get_cache_key view req now c = (Some k, c1)).
  { unfold get_cache_key. rewrite Hck, Hu, Hv. reflexivity. }
  split; [exact Hkey|]. split.
  - unfold get_cache_version in Hv. rewrite Hck, Hu in Hv.
    unfold version_of, version_key.
    destruct (cache_get (ck +:+ "_version_user_" +:+ pretty uid) now c)
      as [[[|n]|d]|]; simpl in Hv; inversion Hv; subst; reflexivity || exact I.
  - unfold Mixin.list. rewrite Hkey. split.
    + intros d Hd. rewrite Hd. reflexivity.
    + intros Hn. rewrite Hn. reflexivity.
Qed.

Lemma C8_witness :
  cache_key projects_view = Some "projects_list" /\
  req_user req_user2 = Some 2 /\
  get_cache_version projects_view req_user2 0 ∅
    = (VInt 1, cache_set (version_key "projects_list" 2) (VInt 1) None 0 ∅) /\
  get_cache_key projects_view req_user2 0 ∅
    = (Some "projects_list_user_2_page_1_v1",
       cache_set (version_key "projects_list" 2) (VInt 1) None 0 ∅).
Proof.
  assert (H1 : cache_key projects_view = Some "projects_list") by reflexivity.
  assert (H2 : req_user req_user2 = Some 2) by reflexivity.
  assert (H3 : get_cache_version projects_view req_user2 0 ∅
    = (VInt 1, cache_set (version_key "projects_list" 2) (VInt 1) None 0 ∅))
    by reflexivity.
  split; [exact H1|]. split; [exact H2|]. split; [exact H3|].
  exact (proj1 (C8_list_cache_key projects_view db_two req_user2 0 ∅
                  "projects_list" 2 _ _ H1 H2 H3)).
Defined.

(** C3 (corrected), counterexample. User 1, author of project 1, has
    deleted their own Contributor row (which [IsProjectAuthor] allows);
    the request-level membership test still accepts them as the author,
    but the object-level check of a GET on the project denies. *)
Lemma C3_author_without_row_denied :
  Permissions.IsProjectAuthor.has_permission db_two
    (Permissions.mkPRequest Permissions.DELETE (Some 1) [])
    (Permissions.mkPView (Some "destroy") [("pk", "1")] None) = Permissions.Ret true /\
  Permissions.IsContributor.member_query db_author_left 1
    (Permissions.mkPRequest Permissions.GET (Some 1) []) = true /\
  Permissions.IsContributor.has_object_permission db_author_left
    (Permissions.mkPRequest Permissions.GET (Some 1) []) (OProject P1) = false.
Proof. vm_compute. repeat split. Qed.

(** C3 (corrected). The object-level check of [IsContributor] derives
    the project from the object's type: the Project itself, the project
    of an Issue or a Contributor, the project of a Comment's issue, and
    none for any other object. An authenticated actor is approved for a
    non-safe method exactly when they are that project's author, and for
    a safe method exactly when a Contributor row links them to that
    project (the project's author without such a row is denied). *)
Theorem C3_object_permission db m u data obj :
  let r := Permissions.mkPRequest m (Some u) data in
  (forall p, Permissions.IsContributor.get_project_from_obj obj = Some p <->
     obj = OProject p \/
     (exists i, obj = OIssue i /\ i_project i = p) \/
     (exists c, obj = OContributor c /\ c_project c = p) \/
     (exists cm, obj = OComment cm /\ i_project (cm_issue cm) = p)) /\
  (Permissions.IsContributor.has_object_permission db r obj = true <->
     exists p, Permissions.IsContributor.get_project_from_obj obj = Some p /\
       if Permissions.is_safe m
       then exists c, In c (db_contributors db) /\ c_user c = u /\ p_id (c_project c) = p_id p
       else p_author p = u).
Proof.
  intros r. split.
  - intros p. destruct obj; simpl; split;
      try (intros [= <-]; eauto 10);
      try (intros H; repeat destruct H as [H|H]; try destruct H as (? & H & ?);
           simplify_eq; done);
      try discriminate.
  - unfold Permissions.IsContributor.has_object_permission, Permissions.is_user;
    subst r; simpl.
    destruct (Permissions.IsContributor.get_project_from_obj obj) as [p|];
      destruct (Permissions.is_safe m); simpl.
    + rewrite existsb_exists. split.
      * intros [c [Hin Hc]]. apply andb_true_iff in Hc as [H1 H2].
        apply Nat.eqb_eq in H1, H2. exists p. split; [done|]. exists c. auto.
      * intros (p' & [= <-] & c & Hin & H1 & H2). exists c. split; [done|].
        apply andb_true_iff. split; apply Nat.eqb_eq; done.
    + rewrite Nat.eqb_eq. split.
      * intros H. exists p. auto.
      * intros (p' & [= <-] & ?). done.
    + rewrite existsb_exists. split.
      * intros [c [_ Hc]]. rewrite andb_false_r in Hc. discriminate.
      * intros (? & ? & _). discriminate.
    + split; [discriminate|]. intros (? & ? & _). discriminate.
Qed.

(** C4 (corrected), counterexample. An authenticated actor listing users
    is allowed, both under [IsSelfOrCreateOnly] and under the
    [IsAuthenticated] that [UserViewSet] is configured with; the latter
    also lets user 1 retrieve user 2. *)
Lemma C4_authenticated_list_allowed :
  Permissions.self_or_create_allows
    (Permissions.mkPRequest Permissions.GET (Some 1) [])
    (Permissions.mkPView (Some "list") [] None) = true /\
  Permissions.user_viewset_allows
    (Permissions.mkPRequest Permissions.GET (Some 1) [])
    (Permissions.mkPView (Some "list") [] None) = true /\
  Permissions.user_viewset_allows
    (Permissions.mkPRequest Permissions.GET (Some 1) [])
    (Permissions.mkPView (Some "retrieve") [("pk", "2")]
       (Some (OUser (mkUser 2 "u2" "u2@x" None false false "h")))) = true.
Proof. vm_compute. repeat split. Qed.

(** C4 (corrected). Under [IsSelfOrCreateOnly], as DRF runs it: an
    unauthenticated actor passes only the create action; an authenticated
    actor passes every action that does not load a User object (list,
    create) and passes retrieve, update, partial_update and destroy
    exactly when the object's id is the actor's own. *)
Theorem C4_self_or_create_only m data v :
  Permissions.self_or_create_allows (Permissions.mkPRequest m None data) v
    = Permissions.action_is "create" v /\
  forall u,
    Permissions.self_or_create_allows (Permissions.mkPRequest m (Some u) data) v
    = if Permissions.object_action v then
        match Permissions.pv_get_object v with
        | Some (OUser usr) => Nat.eqb (u_id usr) u
        | _ => false
        end
      else true.
Proof.
  unfold Permissions.self_or_create_allows, Permissions.drf_allows,
    Permissions.IsSelfOrCreateOnly.has_permission,
    Permissions.IsSelfOrCreateOnly.has_object_permission,
    Permissions.object_action, Permissions.action_is,
    Permissions.is_authenticated, Permissions.is_user; simpl.
  destruct (Permissions.pv_action v) as [a|];
    [|split; [reflexivity|intros u; reflexivity]].
  split.
  - repeat case_bool_decide; simplify_eq; reflexivity.
  - intros u. destruct (Permissions.pv_get_object v) as [[]|];
      repeat case_bool_decide; simplify_eq; reflexivity.
Qed.





(** C6 (code_bug). A reference naming no row makes the check deny:
    [IsContributor] on create, the body with no truthy [project] and an
    [issue] the ORM reads as an id of no issue, returns [Ret false];
    [IsProjectAuthor] on destroy with a [pk] of no Contributor returns
    [Ret false]. But a reference the ORM cannot read as an integer (the
    issue ["abc"], the URL [/api/contributors/abc/]) makes the lookup
    raise [ValueError], which only [DoesNotExist] handlers stand between
    and none catches: the check ends in an exception, not a deny. *)
Theorem C6_missing_reference_outcomes db rc vc ra va pk :
  Permissions.is_safe (Permissions.pr_method rc) = false ->
  Permissions.pv_action vc = Some "create" ->
  Permissions.truthy (Permissions.dict_get "project" (Permissions.pr_data rc)) = false ->
  Permissions.truthy (Permissions.dict_get "issue" (Permissions.pr_data rc)) = true ->
  Permissions.pv_action va = Some "destroy" ->
  Permissions.dict_get "pk" (Permissions.pv_kwargs va) = Some pk ->
  ((forall z, Permissions.dict_get "issue" (Permissions.pr_data rc) ≫= Permissions.to_int
                = Some z ->
              find_issue db z = None ->
              Permissions.IsContributor.has_permission db rc vc = Permissions.Ret false) /\
   (Permissions.dict_get "issue" (Permissions.pr_data rc) ≫= Permissions.to_int = None ->
    Permissions.IsContributor.has_permission db rc vc
    = Permissions.Raise Permissions.ValueError)) /\
  ((forall z, Permissions.int_of_string pk = Some z ->
              find_contributor db z = None ->
              Permissions.IsProjectAuthor.has_permission db ra va = Permissions.Ret false) /\
   (Permissions.int_of_string pk = None ->
    Permissions.IsProjectAuthor.has_permission db ra va
    = Permissions.Raise Permissions.ValueError)).
Proof.
  intros Hsafe Hc Hp Hi Hd Hpk. split.
  - unfold Permissions.IsContributor.has_permission, Permissions.action_is.
    rewrite Hsafe, Hc, bool_decide_eq_true_2 by reflexivity. cbn -[Permissions.truthy].
    rewrite Hp, Hi. split.
    + intros z Hz Hf. rewrite Hz, Hf. reflexivity.
    + intros Hz. rewrite Hz. reflexivity.
  - unfold Permissions.IsProjectAuthor.has_permission, Permissions.action_is,
      Permissions.dict_has.
    rewrite Hd, Hpk. cbn. split.
    + intros z Hz Hf. rewrite Hz, Hf. reflexivity.
    + intros Hz. rewrite Hz. reflexivity.
Qed.

Lemma C6_witness :
  (Permissions.IsContributor.has_permission db_one
     (Permissions.mkPRequest Permissions.POST (Some 2) [("issue", Permissions.PInt 9)])
     (Permissions.mkPView (Some "create") [] None) = Permissions.Ret false /\
   Permissions.IsContributor.has_permission db_one
     (Permissions.mkPRequest Permissions.POST (Some 2) [("issue", Permissions.PStr "abc")])
     (Permissions.mkPView (Some "create") [] None)
   = Permissions.Raise Permissions.ValueError) /\
  (Permissions.IsProjectAuthor.has_permission db_one
     (Permissions.mkPRequest Permissions.DELETE (Some 1) [])
     (Permissions.mkPView (Some "destroy") [("pk", "9")] None) = Permissions.Ret false /\
   Permissions.IsProjectAuthor.has_permission db_one
     (Permissions.mkPRequest Permissions.DELETE (Some 1) [])
     (Permissions.mkPView (Some "destroy") [("pk", "abc")] None)
   = Permissions.Raise Permissions.ValueError).
Proof.
  destruct (C6_missing_reference_outcomes db_one
              (Permissions.mkPRequest Permissions.POST (Some 2) [("issue", Permissions.PInt 9)])
              (Permissions.mkPView (Some "create") [] None)
              (Permissions.mkPRequest Permissions.DELETE (Some 1) [])
              (Permissions.mkPView (Some "destroy") [("pk", "9")] None) "9")
    as [[HA1 _] [HB1 _]]; try reflexivity.
  destruct (C6_missing_reference_outcomes db_one
              (Permissions.mkPRequest Permissions.POST (Some 2) [("issue", Permissions.PStr "abc")])
              (Permissions.mkPView (Some "create") [] None)
              (Permissions.mkPRequest Permissions.DELETE (Some 1) [])
              (Permissions.mkPView (Some "destroy") [("pk", "abc")] None) "abc")
    as [[_ HA2] [_ HB2]]; try reflexivity.
  split; split.
  - apply (HA1 9%Z); vm_compute; reflexivity.
  - apply HA2. vm_compute. reflexivity.
  - apply (HB1 9%Z); vm_compute; reflexivity.
  - apply HB2. vm_compute. reflexivity.
Defined.

(** C7 (confirmed). Creating a project for the authenticated user [u]
    (in a store whose contributor rows refer to existing projects, all
    with ids below the next auto-increment value) succeeds and adds
    exactly one Contributor row: user [u], the new project. So right
    after creation the author is a Contributor of their project. *)
Theorem C7_project_create_adds_author db u title :
  Forall (fun c => p_id (c_project c) < db_next_project db) (db_contributors db) ->
  exists p db',
    Serializers.project_create db u title = Some (p, db') /\
    p_author p = u /\
    In p (db_projects db') /\
    db_contributors db' = (db_contributors db ++ [mkContributor (db_next_contributor db) u p])%list /\
    length (filter (fun c => p_id (c_project c) = p_id p) (db_contributors db')) = 1 /\
    (exists c, In c (db_contributors db') /\ c_user c = p_author p /\ c_project c = p).
Proof.
  intros Hwf. unfold Serializers.project_create; simpl.
  set (p := mkProject (db_next_project db) title u).
  assert (Hno : existsb (fun c => Nat.eqb (c_user c) u
                          && Nat.eqb (p_id (c_project c)) (db_next_project db))
                        (db_contributors db) = false).
  { destruct (existsb _ _) eqn:E; [|done].
    apply existsb_exists in E as [c [Hin Hc]].
    rewrite List.Forall_forall in Hwf. specialize (Hwf c Hin).
    apply andb_true_iff in Hc as [_ Hc]. apply Nat.eqb_eq in Hc. lia. }
  rewrite Hno. eexists p, _. split; [reflexivity|]. simpl.
  split; [reflexivity|]. split; [apply in_or_app; right; left; reflexivity|].
  split; [reflexivity|]. split.
  - rewrite filter_app.
    assert (Hnil : filter (fun c => p_id (c_project c) = db_next_project db)
                          (db_contributors db) = []).
    { clear Hno. induction Hwf as [|c l Hc Hl IH]; [done|].
      rewrite filter_cons_False; [exact IH|]. simpl in *. lia. }
    rewrite Hnil. simpl. rewrite filter_cons_True by reflexivity. reflexivity.
  - eexists. split; [apply in_or_app; right; left; reflexivity|]. split; reflexivity.
Qed.

Lemma C7_witness :
  Forall (fun c => p_id (c_project c) < db_next_project db_two) (db_contributors db_two) /\
  exists p db',
    Serializers.project_create db_two 2 "Q" = Some (p, db') /\
    p_author p = 2 /\
    In p (db_projects db') /\
    db_contributors db' = (db_contributors db_two
                           ++ [mkContributor (db_next_contributor db_two) 2 p])%list /\
    length (filter (fun c => p_id (c_project c) = p_id p) (db_contributors db')) = 1 /\
    (exists c, In c (db_contributors db') /\ c_user c = p_author p /\ c_project c = p).
Proof.
  assert (H : Forall (fun c => p_id (c_project c) < db_next_project db_two)
                     (db_contributors db_two)) by (repeat constructor; simpl; lia).
  split; [exact H|]. exact (C7_project_create_adds_author db_two 2 "Q" H).
Defined.

(** C9 (corrected), counterexample. Two handlers each incrementing user
    1's [projects_list] version, scheduled read, read, write, write: the
    version goes from 1 to 2, not to 1 + 2. *)
Lemma C9_lost_increment :
  version_of 0 "projects_list" 1 ∅ = 1 /\
  version_of 0 "projects_list" 1
    (snd (Interleaving.run "projects_list" 1 0 [0; 1; 0; 1]
            [Interleaving.TStart; Interleaving.TStart] ∅)) = 2.
Proof. vm_compute. split; reflexivity. Qed.

Lemma version_or_1_succ v : version_or_1 (Some (VInt (v + 1))) = v + 1.
Proof. rewrite Nat.add_1_r. reflexivity. Qed.

(** C9 (corrected). [increment_version] is a [cache.get] followed by a
    [cache.set] on the shared store. Run one after the other, [n]
    increments raise the version by exactly [n]; two handlers that both
    read before either writes lose one increment (the version rises by
    one, where two back-to-back handlers raise it by two). *)
Theorem C9_get_then_set pre u now :
  (forall c : store,
     increment_version pre u now c
     = (Interleaving.write_step pre u now (Interleaving.read_step pre u now c) c,
        Interleaving.read_step pre u now c + 1)) /\
  (forall n (c : store),
     version_of now pre u (Interleaving.sequential pre u now n c)
     = version_of now pre u c + n) /\
  (forall c : store,
     version_of now pre u
       (snd (Interleaving.run pre u now [0; 0; 1; 1]
               [Interleaving.TStart; Interleaving.TStart] c))
     = version_of now pre u c + 2) /\
  (forall c : store,
     version_of now pre u
       (snd (Interleaving.run pre u now [0; 1; 0; 1]
               [Interleaving.TStart; Interleaving.TStart] c))
     = version_of now pre u c + 1).
Proof.
  split; [reflexivity|]. split; [|split].
  - intros n c. unfold Interleaving.sequential.
    induction n as [|n IH]; [simpl; lia|].
    rewrite Nat.iter_succ, version_of_increment_same, IH. lia.
  - intros c. unfold Interleaving.run; simpl.
    unfold Interleaving.write_step, Interleaving.read_step, version_of.
    rewrite !cache_get_set_none_eq, !version_or_1_succ. lia.
  - intros c. unfold Interleaving.run; simpl.
    unfold Interleaving.write_step, Interleaving.read_step, version_of.
    rewrite !cache_get_set_none_eq, !version_or_1_succ. lia.
Qed.

(** C10 (confirmed). The user representation has no password key, and
    it does not depend on the stored password. *)
Theorem C10_no_password u pw :
  ~ In "password" (map fst (Serializers.user_to_representation u)) /\
  map fst (Serializers.user_to_representation u)
    = ["id"; "username"; "email"; "age"; "can_be_contacted"; "can_data_be_shared"] /\
  Serializers.user_to_representation
    (mkUser (u_id u) (u_username u) (u_email u) (u_age u)
            (u_can_be_contacted u) (u_can_data_be_shared u) pw)
  = Serializers.user_to_representation u.
Proof.
  destruct u; simpl. split; [|split; reflexivity].
  intros H. repeat destruct H as [H|H]; discriminate H || exact H.
Qed.

End Claims.

(* ------------------------------------------------------------------ *)
(** ** Further properties of the cache layer and the permissions *)

Module Extras.
Import Models Cache Signals Mixin MixinInvalidate SignalFacts Fixtures.

Lemma cache_get_set_ttl k v ttl now (c : store) :
  0 < ttl -> cache_get k now (cache_set k v (Some ttl) now c) = Some v.
Proof.
  intros H. unfold cache_get, cache_set. rewrite lookup_insert_eq. simpl.
  rewrite decide_True by lia. reflexivity.
Qed.

(** The mixin does not touch the cache for an anonymous request or a view
    without [cache_key]: the live query is returned and the store is left
    as it was. *)
Theorem list_bypass view db req now (c : store) :
  cache_key view = None \/ req_user req = None ->
  Mixin.list view db req now c = (mkResponse (VData (super_list view db req)), c).
Proof.
  intros H. unfold Mixin.list, get_cache_key.
  destruct H as [-> | ->]; [reflexivity|].
  destruct (cache_key view); reflexivity.
Qed.

Lemma list_bypass_witness :
  (cache_key projects_view = None \/ req_user (mkRequest None None) = None) /\
  Mixin.list projects_view db_two (mkRequest None None) 0 ∅
    = (mkResponse (VData (super_list projects_view db_two (mkRequest None None))), ∅).
Proof.
  assert (H : cache_key projects_view = None \/ req_user (mkRequest None None) = None)
    by (right; reflexivity).
  split; [exact H|]. exact (list_bypass projects_view db_two (mkRequest None None) 0 ∅ H).
Defined.

(** An authenticated request on a caching view, replayed at the same time
    against the store the first one left, gets the same response and
    leaves the store unchanged, whatever the database holds by then: the
    page is served from the cache. *)
Theorem list_replay view db db' req now (c : store) ck uid resp c1 :
  cache_key view = Some ck ->
  req_user req = Some uid ->
  Mixin.list view db req now c = (resp, c1) ->
  Mixin.list view db' req now c1 = (resp, c1).
Proof.
  intros Hck Hu Hl.
  assert (Hne : forall x y, ck +:+ "_user_" +:+ x <> ck +:+ "_version_user_" +:+ y).
  { intros x y H. apply (inj (String.append ck)) in H. discriminate H. }
  unfold Mixin.list, get_cache_key, get_cache_version in *.
  rewrite Hck, Hu in *.
  set (vk := ck +:+ "_version_user_" +:+ pretty uid) in *.
  destruct (cache_get vk now c) as [v|] eqn:Ev;
    [destruct (py_truthy (Some v)) eqn:Et|];
    cbn -[cache_get cache_set py_truthy String.append pretty] in Hl;
    match type of Hl with
    | context [cache_get ?k now ?c0] => destruct (cache_get k now c0) as [d|] eqn:Ek
    end;
    injection Hl as <- <-;
    cbn -[cache_get cache_set py_truthy String.append pretty].
  - rewrite Ev, Et. cbn -[cache_get cache_set String.append pretty].
    rewrite Ek. reflexivity.
  - rewrite cache_get_set_ne by (apply Hne). rewrite Ev, Et.
    cbn -[cache_get cache_set String.append pretty].
    rewrite cache_get_set_ttl by lia. reflexivity.
  - rewrite cache_get_set_none_eq. cbn -[cache_get cache_set String.append pretty].
    rewrite Ek. reflexivity.
  - rewrite cache_get_set_ne by (apply Hne). rewrite cache_get_set_none_eq.
    cbn -[cache_get cache_set String.append pretty].
    rewrite cache_get_set_ttl by lia. reflexivity.
  - rewrite cache_get_set_none_eq. cbn -[cache_get cache_set String.append pretty].
    rewrite Ek. reflexivity.
  - rewrite cache_get_set_ne by (apply Hne). rewrite cache_get_set_none_eq.
    cbn -[cache_get cache_set String.append pretty].
    rewrite cache_get_set_ttl by lia. reflexivity.
Qed.

Lemma list_replay_witness :
  cache_key projects_view = Some "projects_list" /\
  req_user req_user2 = Some 2 /\
  Mixin.list projects_view db_two req_user2 0 ∅
    = (mkResponse (VData [1]), snd (Mixin.list projects_view db_two req_user2 0 ∅)) /\
  Mixin.list projects_view db_one req_user2 0
      (snd (Mixin.list projects_view db_two req_user2 0 ∅))
    = (mkResponse (VData [1]), snd (Mixin.list projects_view db_two req_user2 0 ∅)).
Proof.
  assert (H1 : cache_key projects_view = Some "projects_list") by reflexivity.
  assert (H2 : req_user req_user2 = Some 2) by reflexivity.
  assert (H3 : Mixin.list projects_view db_two req_user2 0 ∅
    = (mkResponse (VData [1]), snd (Mixin.list projects_view db_two req_user2 0 ∅)))
    by (vm_compute; reflexivity).
  split; [exact H1|]. split; [exact H2|]. split; [exact H3|].
  exact (list_replay projects_view db_two db_one req_user2 0 ∅ "projects_list" 2
           _ _ H1 H2 H3).
Defined.

(** [_invalidate_cache], run after the mixin's create, partial update and
    destroy, raises the requesting user's version for this view's
    [cache_key] by one and leaves every other version counter as it was;
    in particular the other users who see the same project keep theirs. *)
Theorem invalidate_cache_own_version view req now (c : store) ck uid :
  cache_key view = Some ck ->
  req_user req = Some uid ->
  version_of now ck uid (invalidate_cache view req now c) = S (version_of now ck uid c) /\
  (forall pre u, version_key pre u <> version_key ck uid ->
     version_of now pre u (invalidate_cache view req now c) = version_of now pre u c).
Proof.
  intros Hck Hu.
  assert (Heq : invalidate_cache view req now c = fst (increment_version ck uid now c)).
  { unfold invalidate_cache, increment_version. rewrite Hck, Hu. reflexivity. }
  rewrite Heq. split.
  - apply version_of_increment_same.
  - intros pre u Hne. apply version_of_increment_other. congruence.
Qed.

Lemma invalidate_cache_own_version_witness :
  cache_key projects_view = Some "projects_list" /\
  req_user req_user2 = Some 2 /\
  version_of 0 "projects_list" 2 (invalidate_cache projects_view req_user2 0 ∅)
    = S (version_of 0 "projects_list" 2 ∅).
Proof.
  assert (H1 : cache_key projects_view = Some "projects_list") by reflexivity.
  assert (H2 : req_user req_user2 = Some 2) by reflexivity.
  split; [exact H1|]. split; [exact H2|].
  exact (proj1 (invalidate_cache_own_version projects_view req_user2 0 ∅
                  "projects_list" 2 H1 H2)).
Defined.

(** A mutation signal raises, on each of the four list endpoints, the
    version of every user returned by [get_related_users], and leaves the
    versions of all other users unchanged. *)
Theorem auto_invalidate_related_only db inst now pre u (c : store) :
  pre ∈ prefixes ->
  (In u (get_related_users db inst) ->
     version_of now pre u c < version_of now pre u (auto_invalidate_cache db inst now c)) /\
  (~ In u (get_related_users db inst) ->
     version_of now pre u (auto_invalidate_cache db inst now c) = version_of now pre u c).
Proof.
  intros Hin. rewrite version_of_auto_invalidate by exact Hin. split.
  - intros H. apply (count_occ_In Nat.eq_dec) in H. lia.
  - intros H. apply (count_occ_not_In Nat.eq_dec) in H. lia.
Qed.

Lemma auto_invalidate_related_only_witness :
  "issues_list" ∈ prefixes /\
  (~ In 2 (get_related_users db_one (OIssue I1)) ->
     version_of 0 "issues_list" 2 (auto_invalidate_cache db_one (OIssue I1) 0 ∅)
     = version_of 0 "issues_list" 2 ∅).
Proof.
  assert (H : "issues_list" ∈ prefixes) by (unfold prefixes; set_solver).
  split; [exact H|].
  exact (proj2 (auto_invalidate_related_only db_one (OIssue I1) 0 "issues_list" 2 ∅ H)).
Defined.




(** [ProjectSerializer.create] on a store whose keys are below the next
    project key never hits the [unique_together] IntegrityError: it returns
    the new project, keyed by that next key and authored by the requesting
    user, the store keeps the invariant, and the author is the one and only
    contributor of the new project. *)
Theorem project_create_ok db u title :
  Invariants.ids_below db = true ->
  exists p db',
    Serializers.project_create db u title = Some (p, db') /\
    p_id p = db_next_project db /\ p_author p = u /\
    Invariants.ids_below db' = true /\
    contributor_user_ids db' p = [u].
Proof.
  unfold Invariants.ids_below. intros H.
  apply andb_true_iff in H as [Hp Hc].
  rewrite forallb_forall in Hp, Hc.
  unfold Serializers.project_create; cbn.
  assert (Hno : existsb (fun c => Nat.eqb (c_user c) u
                   && Nat.eqb (p_id (c_project c)) (db_next_project db))
                  (db_contributors db) = false).
  { apply Bool.not_true_iff_false. rewrite existsb_exists.
    intros (c & Hin & Hm). apply andb_true_iff in Hm as [_ Hm].
    apply Nat.eqb_eq in Hm. specialize (Hc c Hin).
    apply Nat.ltb_lt in Hc. lia. }
  rewrite Hno. eexists _, _. split; [reflexivity|].
  cbn. split; [reflexivity|]. split; [reflexivity|]. split.
  - apply andb_true_iff; split; rewrite forallb_forall; intros x Hx;
      apply in_app_or in Hx as [Hx | [<- | []]]; cbn; apply Nat.leb_le;
      try lia.
    + specialize (Hp x Hx). apply Nat.ltb_lt in Hp. lia.
    + specialize (Hc x Hx). apply Nat.ltb_lt in Hc. lia.
  - unfold contributor_user_ids; cbn.
    rewrite filter_app. cbn.
    assert (Hnil : filter (fun c => p_id (c_project c) = db_next_project db)
                     (db_contributors db) = []).
    { clear Hno Hp. induction (db_contributors db) as [|c cs IH]; [reflexivity|].
      rewrite filter_cons_False.
      - apply IH. intros x Hx. apply Hc. right. exact Hx.
      - specialize (Hc c (or_introl eq_refl)). apply Nat.ltb_lt in Hc. lia. }
    rewrite Hnil. rewrite decide_True by reflexivity. reflexivity.
Qed.

Lemma project_create_ok_witness :
  Invariants.ids_below db_one = true /\
  exists p db',
    Serializers.project_create db_one 2 "Q" = Some (p, db') /\
    p_id p = db_next_project db_one /\ p_author p = 2 /\
    Invariants.ids_below db' = true /\
    contributor_user_ids db' p = [2].
Proof.
  split; [vm_compute; reflexivity|].
  apply (project_create_ok db_one 2 "Q"). vm_compute. reflexivity.
Defined.

(** [IsProjectAuthorForContributor] (declared, attached to no view): on
    an unsafe partial_update or destroy of a Project row it refuses even
    the project's author, since a Project has no [project] attribute;
    on a Contributor row it passes exactly for the author of the
    contributor's project. *)
Theorem contributor_author_object_rule db m u data a kwargs (p : Project)
    (c : Contributor) :
  Permissions.is_safe m = false ->
  a = "partial_update" \/ a = "destroy" ->
  MorePermissions.IsProjectAuthorForContributor.has_permission db
    (Permissions.mkPRequest m (Some (p_author p)) data)
    (Permissions.mkPView (Some a) kwargs (Some (OProject p)))
  = Permissions.Ret false /\
  MorePermissions.IsProjectAuthorForContributor.has_permission db
    (Permissions.mkPRequest m u data)
    (Permissions.mkPView (Some a) kwargs (Some (OContributor c)))
  = Permissions.Ret (bool_decide (u = Some (p_author (c_project c)))).
Proof.
  intros Hm Ha.
  unfold MorePermissions.IsProjectAuthorForContributor.has_permission,
    Permissions.action_is, Permissions.is_user; cbn.
  rewrite Hm.
  destruct Ha as [-> | ->]; cbn; split; try reflexivity;
    f_equal; destruct u as [uid|]; cbn;
    [ destruct (Nat.eqb_spec (p_author (c_project c)) uid) as [<-|Hne];
      [rewrite bool_decide_eq_true_2 by reflexivity; reflexivity
      |rewrite bool_decide_eq_false_2 by congruence; reflexivity]
    | reflexivity
    | destruct (Nat.eqb_spec (p_author (c_project c)) uid) as [<-|Hne];
      [rewrite bool_decide_eq_true_2 by reflexivity; reflexivity
      |rewrite bool_decide_eq_false_2 by congruence; reflexivity]
    | reflexivity ].
Qed.

Lemma contributor_author_object_rule_witness :
  Permissions.is_safe Permissions.DELETE = false /\
  ("destroy" = "partial_update" \/ "destroy" = "destroy") /\
  MorePermissions.IsProjectAuthorForContributor.has_permission db_two
    (Permissions.mkPRequest Permissions.DELETE (Some (p_author P1)) [])
    (Permissions.mkPView (Some "destroy") [] (Some (OProject P1)))
  = Permissions.Ret false /\
  MorePermissions.IsProjectAuthorForContributor.has_permission db_two
    (Permissions.mkPRequest Permissions.DELETE (Some 1) [])
    (Permissions.mkPView (Some "destroy") [] (Some (OContributor C_user2)))
  = Permissions.Ret (bool_decide (Some 1 = Some (p_author (c_project C_user2)))).
Proof.
  split; [reflexivity|]. split; [right; reflexivity|].
  apply (contributor_author_object_rule db_two Permissions.DELETE (Some 1) []
           "destroy" [] P1 C_user2); [reflexivity | right; reflexivity].
Defined.

(** [IsProjectAuthorForContributor] on a create: an authenticated user
    passes exactly when the body's [project] is a truthy value the ORM
    reads as the primary key of a project they author. *)
Theorem contributor_author_create_rule db m uid data kwargs ob :
  Permissions.is_safe m = false ->
  MorePermissions.IsProjectAuthorForContributor.has_permission db
    (Permissions.mkPRequest m (Some uid) data)
    (Permissions.mkPView (Some "create") kwargs ob) = Permissions.Ret true <->
  exists v p, Permissions.dict_get "project" data = Some v /\
              Permissions.truthy (Some v) = true /\
              Permissions.to_int v = Some (Z.of_nat (p_id p)) /\
              In p (db_projects db) /\ p_author p = uid.
Proof.
  intros Hm.
  unfold MorePermissions.IsProjectAuthorForContributor.has_permission,
    Permissions.action_is; cbn -[Permissions.dict_get Permissions.truthy].
  rewrite Hm. rewrite bool_decide_eq_true_2 by reflexivity.
  destruct (Permissions.dict_get "project" data) as [v|] eqn:Hd;
    cbn -[Permissions.truthy].
  - destruct (Permissions.truthy (Some v)) eqn:Ht.
    + destruct (Permissions.to_int v) as [z|] eqn:Hz.
      * unfold Permissions.project_author_exists, Permissions.is_user; cbn.
        split.
        -- intros Hr. injection Hr as Hr.
           apply existsb_exists in Hr as (p & Hin & Hm').
           apply andb_true_iff in Hm' as [H1 H2].
           apply Z.eqb_eq in H1. apply Nat.eqb_eq in H2.
           exists v, p. rewrite H1. auto.
        -- intros (v' & p & [= <-] & _ & Hz' & Hin & Ha).
           f_equal. apply existsb_exists. exists p. split; [exact Hin|].
           apply andb_true_iff. split; [apply Z.eqb_eq; congruence
                                       | apply Nat.eqb_eq; exact Ha].
      * split; [discriminate|]. intros (v' & p & [= <-] & _ & Hz' & _). congruence.
    + split; [discriminate|]. intros (v' & p & [= <-] & Ht' & _). congruence.
  - split; [discriminate|]. intros (v' & p & H & _). discriminate.
Qed.

Lemma contributor_author_create_rule_witness :
  Permissions.is_safe Permissions.POST = false /\
  MorePermissions.IsProjectAuthorForContributor.has_permission db_two
    (Permissions.mkPRequest Permissions.POST (Some 1) [("project", Permissions.PStr "1")])
    (Permissions.mkPView (Some "create") [] None) = Permissions.Ret true.
Proof.
  split; [reflexivity|].
  apply (contributor_author_create_rule db_two Permissions.POST 1
           [("project", Permissions.PStr "1")] [] None); [reflexivity|].
  exists (Permissions.PStr "1"), P1.
  repeat split; [left; reflexivity].
Defined.

(** A project created through [ProjectSerializer.create] on a store with
    the key invariant shows up in [ProjectViewSet.get_queryset] for its
    creator and for nobody else. *)
Theorem project_create_visible db u title p db' v page :
  Invariants.ids_below db = true ->
  Serializers.project_create db u title = Some (p, db') ->
  In (p_id p) (projects_queryset db' (mkRequest (Some v) page)) <-> v = u.
Proof.
  unfold Invariants.ids_below. intros Hw Hcr.
  apply andb_true_iff in Hw as [Hp Hc].
  rewrite forallb_forall in Hp, Hc.
  unfold Serializers.project_create in Hcr; cbn in Hcr.
  destruct (existsb _ _); [discriminate|].
  injection Hcr as <- <-.
  unfold projects_queryset; cbn. rewrite in_map_iff. split.
  - intros (q & Hq & Hin). apply list_elem_of_In, list_elem_of_filter in Hin
      as [Hvis Hin]. apply list_elem_of_In, in_app_or in Hin as [Hin | [<- | []]].
    + specialize (Hp q Hin). apply Nat.ltb_lt in Hp. cbn in Hq. lia.
    + cbn in Hvis. apply orb_true_iff in Hvis as [Hv | Hv].
      * apply Nat.eqb_eq in Hv. auto.
      * apply existsb_exists in Hv as (c & Hin & Hm).
        apply andb_true_iff in Hm as [H1 H2]. apply Nat.eqb_eq in H1, H2.
        apply in_app_or in Hin as [Hin | [<- | []]].
        -- specialize (Hc c Hin). apply Nat.ltb_lt in Hc. cbn in H2. lia.
        -- cbn in H1. auto.
  - intros ->. exists (mkProject (db_next_project db) title u). split; [reflexivity|].
    apply list_elem_of_In, list_elem_of_filter. split.
    + cbn. rewrite Nat.eqb_refl. reflexivity.
    + apply list_elem_of_In, in_or_app. right. left. reflexivity.
Qed.

Lemma project_create_visible_witness :
  Invariants.ids_below db_two = true /\
  Serializers.project_create db_two 2 "Q"
    = Some (mkProject 2 "Q" 2,
            mkDB [] [P1; mkProject 2 "Q" 2]
                 [C_author; C_user2; mkContributor 3 2 (mkProject 2 "Q" 2)]
                 [I1] [] 3 4) /\
  (In 2 (projects_queryset
           (mkDB [] [P1; mkProject 2 "Q" 2]
                 [C_author; C_user2; mkContributor 3 2 (mkProject 2 "Q" 2)]
                 [I1] [] 3 4) (mkRequest (Some 1) None)) <-> 1 = 2).
Proof.
  split; [vm_compute; reflexivity|]. split; [vm_compute; reflexivity|].
  apply (project_create_visible db_two 2 "Q" (mkProject 2 "Q" 2)
           (mkDB [] [P1; mkProject 2 "Q" 2]
                 [C_author; C_user2; mkContributor 3 2 (mkProject 2 "Q" 2)]
                 [I1] [] 3 4) 1 None); vm_compute; reflexivity.
Defined.

Lemma count_done_insert (ts : Datatypes.list Interleaving.thread) i t0 t :
  ts !! i = Some t0 ->
  Invariants.count_done (<[i := t]> ts) + Invariants.is_done t0
  = Invariants.count_done ts + Invariants.is_done t.
Proof.
  revert i. induction ts as [|t1 ts IH]; intros [|i] H; try discriminate.
  - injection H as <-.
    change (<[0 := t]> (t1 :: ts)) with (t :: ts).
    cbn [Invariants.count_done]. lia.
  - specialize (IH i H).
    change (<[S i := t]> (t1 :: ts)) with (t1 :: <[i := t]> ts).
    cbn [Invariants.count_done]. lia.
Qed.

Lemma count_done_le (ts : Datatypes.list Interleaving.thread) : Invariants.count_done ts <= length ts.
Proof.
  induction ts as [|[] ts IH]; cbn; lia.
Qed.

Lemma version_of_write_step pre u now v (c : store) :
  version_of now pre u (Interleaving.write_step pre u now v c) = v + 1.
Proof.
  unfold version_of, Interleaving.write_step.
  rewrite cache_get_set_none_eq, Nat.add_1_r. reflexivity.
Qed.

Section RunBounds.
Variables (pre : string) (u now V0 : nat).

(** What holds of the version counter while handlers run: it never drops
    below its start [V0], it rose by at most the number of finished
    handlers and by at least one once a handler finished; the same
    bounds hold of every value read and not yet written back. *)
Definition run_inv (st : Datatypes.list Interleaving.thread * store) : Prop :=
  let '(ts, c) := st in
  V0 <= version_of now pre u c /\
  version_of now pre u c <= V0 + Invariants.count_done ts /\
  (0 < Invariants.count_done ts -> V0 + 1 <= version_of now pre u c) /\
  (forall i v, ts !! i = Some (Interleaving.TRead v) ->
               V0 <= v /\ v <= V0 + Invariants.count_done ts).

Lemma step_run_inv st i :
  run_inv st ->
  run_inv (Interleaving.step pre u now st i) /\
  length (fst (Interleaving.step pre u now st i)) = length (fst st).
Proof.
  destruct st as [ts c]. intros (H1 & H2 & H3 & H4).
  unfold Interleaving.step.
  destruct (ts !! i) as [[|v|]|] eqn:Hi; cbn; try (split; [|reflexivity]; cbn; auto).
  - pose proof (count_done_insert ts i Interleaving.TStart
                  (Interleaving.TRead (Interleaving.read_step pre u now c)) Hi) as Hc.
    cbn in Hc. rewrite !Nat.add_0_r in Hc. rewrite Hc.
    split; [|apply length_insert].
    split; [exact H1|]. split; [exact H2|]. split; [exact H3|].
    intros j w Hj. apply list_lookup_insert_Some in Hj
      as [(-> & Hw & _) | (_ & Hj)]; [|exact (H4 j w Hj)].
    injection Hw as <-. unfold Interleaving.read_step. split; [exact H1|exact H2].
  - pose proof (count_done_insert ts i (Interleaving.TRead v)
                  Interleaving.TDone Hi) as Hc.
    cbn in Hc. rewrite Nat.add_0_r in Hc.
    destruct (H4 i v Hi) as [Hv1 Hv2].
    split; [|apply length_insert].
    rewrite version_of_write_step. split; [lia|]. split; [lia|].
    split; [lia|].
    intros j w Hj. apply list_lookup_insert_Some in Hj
      as [(-> & Hw & _) | (_ & Hj)]; [discriminate|].
    destruct (H4 j w Hj). lia.
Qed.

Lemma run_run_inv sched st :
  run_inv st ->
  run_inv (foldl (Interleaving.step pre u now) st sched) /\
  length (fst (foldl (Interleaving.step pre u now) st sched)) = length (fst st).
Proof.
  revert st. induction sched as [|i sched IH]; intros st H; [auto|].
  cbn. destruct (step_run_inv st i H) as [H' Hl].
  destruct (IH _ H') as [IH1 IH2]. rewrite IH2, Hl. auto.
Qed.

End RunBounds.

(** [increment_version] run by [n] concurrent handlers, along any
    schedule of their get and set operations: the version never ends
    below where it started, it rises by at most the number of handlers
    that finished (at most [n]) and by at least one as soon as one
    finished. *)
Theorem run_version_bounds pre u now n sched (c : store) :
  let st := Interleaving.run pre u now sched
              (replicate n Interleaving.TStart) c in
  version_of now pre u c <= version_of now pre u (snd st) /\
  version_of now pre u (snd st)
    <= version_of now pre u c + Invariants.count_done (fst st) /\
  (0 < Invariants.count_done (fst st) ->
   version_of now pre u c + 1 <= version_of now pre u (snd st)) /\
  Invariants.count_done (fst st) <= n.
Proof.
  intros st.
  assert (H0 : run_inv pre u now (version_of now pre u c)
                 (replicate n Interleaving.TStart, c)).
  { cbn. assert (Hz : Invariants.count_done (replicate n Interleaving.TStart) = 0)
      by (induction n; cbn; auto).
    rewrite Hz. split; [lia|]. split; [lia|]. split; [lia|].
    intros i v Hi. apply lookup_replicate in Hi as [Hi _]. discriminate. }
  destruct (run_run_inv pre u now _ sched _ H0) as [Hinv Hlen].
  unfold st, Interleaving.run.
  destruct (foldl _ _ _) as [ts c'] eqn:Hf. cbn in Hinv, Hlen |- *.
  destruct Hinv as (H1 & H2 & H3 & _).
  rewrite length_replicate in Hlen.
  pose proof (count_done_le ts). repeat split; auto; lia.
Qed.

(** The version can go back: with three handlers, after [0;1;1;2;2] (0
    and 1 read, 1 writes, 2 reads and writes) the version stands two
    above its start, and handler 0's late write brings it back to one
    above, a value it already held. *)
Theorem run_version_regresses pre u now (c : store) :
  let ts0 := [Interleaving.TStart; Interleaving.TStart; Interleaving.TStart] in
  version_of now pre u (snd (Interleaving.run pre u now [0; 1; 1; 2; 2] ts0 c))
    = version_of now pre u c + 2 /\
  version_of now pre u (snd (Interleaving.run pre u now [0; 1; 1; 2; 2; 0] ts0 c))
    = version_of now pre u c + 1.
Proof.
  intros ts0. unfold Interleaving.run; cbn.
  unfold Interleaving.write_step, Interleaving.read_step, version_of.
  rewrite !cache_get_set_none_eq, !Nat.add_1_r. cbn [version_or_1].
  split; lia.
Qed.

(** [CommentViewSet]: the permission classes and the queryset agree on
    reads. A stored comment is in the user's comment list exactly when
    [IsAuthenticated], [IsContributor] and [IsResourceAuthorOrReadOnly]
    let the user retrieve it. *)
Theorem comment_list_matches_retrieve db u data kwargs (cm : Comment) :
  In cm (db_comments db) ->
  In cm (Views.comments_queryset db u) <->
  MorePermissions.comment_viewset_check db
    (Permissions.mkPRequest Permissions.GET (Some u) data)
    (Permissions.mkPView (Some "retrieve") kwargs (Some (OComment cm)))
  = Permissions.Ret true.
Proof.
  intros Hin.
  unfold Views.comments_queryset, MorePermissions.comment_viewset_check,
    Permissions.IsContributor.has_permission,
    Permissions.IsContributor.has_object_permission,
    MorePermissions.IsResourceAuthorOrReadOnly.has_object_permission,
    Permissions.object_action, Permissions.action_is, Permissions.is_user.
  cbn. rewrite filter_In, andb_true_r.
  split.
  - intros [_ H]. rewrite H. reflexivity.
  - intros H. injection H as H. split; [exact Hin | exact H].
Qed.

Lemma comment_list_matches_retrieve_witness :
  In (mkComment 1 I1 2) (db_comments (mkDB [] [P1] [C_author; C_user2] [I1]
                                        [mkComment 1 I1 2] 2 3)) /\
  (In (mkComment 1 I1 2)
      (Views.comments_queryset (mkDB [] [P1] [C_author; C_user2] [I1]
                                 [mkComment 1 I1 2] 2 3) 2) <->
   MorePermissions.comment_viewset_check
     (mkDB [] [P1] [C_author; C_user2] [I1] [mkComment 1 I1 2] 2 3)
     (Permissions.mkPRequest Permissions.GET (Some 2) [])
     (Permissions.mkPView (Some "retrieve") [] (Some (OComment (mkComment 1 I1 2))))
   = Permissions.Ret true).
Proof.
  split; [left; reflexivity|].
  apply comment_list_matches_retrieve. left. reflexivity.
Defined.

End Extras.
